(** * The moderation service: warning and action ledgers (models.py)

    A shallow embedding of [models.py]: the two ledgers
    ([ModerationAction], [ModerationWarning]), the threshold table, the
    SQLAlchemy session they are written through, and the operations
    [turn_on], [turn_off], [moderate] and [warn].

    Timestamps are integers (seconds), database integers are [Z], the
    opaque JSON column is an association list.  The remote user's
    [send_mail] and [send_message] are external and may raise. *)

From Stdlib Require Import ZArith List String Bool Lia.
Import ListNotations.

Open Scope string_scope.
Open Scope list_scope.
Open Scope Z_scope.

(** ** Module-level constants *)

Definition DEFAULT_MODERATION_WARNING_THRESHOLD : Z := 3.

Definition ACTION_TYPES : list (string * string) :=
  [ ("ban_account", "Ban account");
    ("hide_message", "Hide message");
    ("ban_game", "Ban in game") ].

(** ** Rows *)

Definition JSON := list (string * string).
Definition datetime := Z.

Module RemoteUser.
Record t := mk { id : Z }.
End RemoteUser.

(** The columns of the abstract [BaseModerationAction].  [extra_data] is
    the JSON object of the row; an inserted row always holds one, the
    column default standing in when the constructor received none. *)
Record BaseModerationAction := mkBase {
  id : Z;
  action_type : string;
  moderator_id : Z;
  user_id : Z;
  created_at : datetime;
  reason : string;
  is_active : bool;
  extra_data : option JSON
}.

Record ModerationAction := mkAction {
  action_base :> BaseModerationAction;
  finish_at : option datetime
}.

Record ModerationWarning := mkWarning {
  warning_base :> BaseModerationAction
}.

Module Threshold.
Record t := mk { id : Z; action_type : string; value : Z }.
End Threshold.
Definition ModerationWarningThreshold := Threshold.t.

(** ** Derived properties of an action

    [timezone.now()] is the argument [now]. *)

Definition time_limited (a : ModerationAction) : bool :=
  match finish_at a with Some _ => true | None => false end.

Definition finish_in (now : datetime) (a : ModerationAction) : option Z :=
  match finish_at a with
  | Some t => Some (t - now)
  | None => None
  end.

Definition finished (now : datetime) (a : ModerationAction) : bool :=
  match finish_at a with
  | Some t => t <=? now
  | None => true
  end.

(** [BaseModerationAction.active], inherited by warnings. *)
Definition base_active (r : BaseModerationAction) : bool := is_active r.

(** [ModerationAction.active] overrides it. *)
Definition active (now : datetime) (a : ModerationAction) : bool :=
  is_active a && negb (finished now a).

Definition warning_active (w : ModerationWarning) : bool := base_active w.

(** ** Exceptions and outcomes

    Every exception here is an instance of Python's [Exception]; it is
    identified by its class name. *)

Record exn := mkExn { exn_class : string; exn_msg : string }.

Definition AttributeError (owner attr : string) : exn :=
  mkExn "AttributeError" (owner ++ " has no attribute '" ++ attr ++ "'").

Inductive result (A : Type) : Type :=
| Ok (a : A)
| Raise (e : exn).
Arguments Ok {A} a.
Arguments Raise {A} e.

(** ** The store and what the outside world sees

    [committed] is the database as other transactions read it; [session]
    is the view inside the current transaction ([db.session]): rows that
    were added or changed but not yet committed live only there.
    [db.session.commit()] publishes the view, [db.session.rollback()]
    discards it.  The INSERT defaults of a row ([id] from the table's
    sequence, [created_at], [is_active]) are filled in when the row enters
    the session view. *)

Record Tables := mkTables {
  actions : list ModerationAction;
  warnings : list ModerationWarning;
  warning_thresholds : list ModerationWarningThreshold;
  actions_seq : Z;
  warnings_seq : Z
}.

Inductive Notification :=
| Email (to : RemoteUser.t) (subject message from_email : string)
| Message (to : RemoteUser.t) (message : string).

Inductive Event :=
| AddedAction (a : ModerationAction)
| AddedWarning (w : ModerationWarning)
| Committed
| RolledBack
| Sent (n : Notification).

Record World := mkWorld {
  committed : Tables;
  session : Tables;
  events : list Event
}.

(** ** State and exception monad *)

Definition M (A : Type) : Type := World -> result A * World.

Definition ret {A} (a : A) : M A := fun w => (Ok a, w).

Definition raise {A} (e : exn) : M A := fun w => (Raise e, w).

Definition bind {A B} (c : M A) (k : A -> M B) : M B :=
  fun w =>
    match c w with
    | (Ok a, w') => k a w'
    | (Raise e, w') => (Raise e, w')
    end.

Notation "x <- c ;; k" := (bind c (fun x => k))
  (at level 61, c at next level, right associativity).
Notation "c ;; k" := (bind c (fun _ => k))
  (at level 61, right associativity).

(** [try: body except Exception: handler] *)
Definition try_except {A} (body : M A) (handler : exn -> M A) : M A :=
  fun w =>
    match body w with
    | (Ok a, w') => (Ok a, w')
    | (Raise e, w') => handler e w'
    end.

Definition log (e : Event) : M unit :=
  fun w => (Ok tt, mkWorld (committed w) (session w) (events w ++ [e])).

Definition modify_session (f : Tables -> Tables) : M unit :=
  fun w => (Ok tt, mkWorld (committed w) (f (session w)) (events w)).

(** A commit that the store accepts: the session view is published. *)
Definition session_commit : M unit :=
  (fun w => (Ok tt, mkWorld (session w) (session w) (events w))) ;; log Committed.

Definition session_rollback : M unit :=
  (fun w => (Ok tt, mkWorld (committed w) (committed w) (events w))) ;; log RolledBack.

(** ** Coroutines

    Calling an [async def] runs nothing: it evaluates to a coroutine
    object, and [await] runs the body.  A coroutine object has no
    attributes of the value its body would return. *)

Inductive coroutine (A : Type) : Type := Coroutine (body : M A).
Arguments Coroutine {A} body.

Definition await {A} (c : coroutine A) : M A :=
  match c with Coroutine body => body end.

Definition coroutine_getattr {A B} (c : coroutine A) (name : string) : M B :=
  raise (AttributeError "'coroutine' object" name).

(** ** Classes and attribute lookup

    The members the three classes declare in [models.py]; the framework
    bases ([db.Model], [InternalAPIMixin]) add [query], [save] and the
    like, none of which is looked up through this table. *)

Inductive pyclass := BaseModerationAction_cls | ModerationAction_cls | ModerationWarning_cls.

Inductive member :=
| Column | Method | AsyncMethod | Property | HybridProperty
| AsyncClassMethod | AsyncStaticMethod.

Definition class_name (c : pyclass) : string :=
  match c with
  | BaseModerationAction_cls => "BaseModerationAction"
  | ModerationAction_cls => "ModerationAction"
  | ModerationWarning_cls => "ModerationWarning"
  end.

Definition class_body (c : pyclass) : list (string * member) :=
  match c with
  | BaseModerationAction_cls =>
      [ ("id", Column); ("action_type", Column); ("moderator_id", Column);
        ("user_id", Column); ("created_at", Column); ("reason", Column);
        ("is_active", Column); ("extra_data", Column);
        ("__init__", Method); ("request_user", Property);
        ("get_user", AsyncMethod); ("get_moderator", AsyncMethod);
        ("turn_on", Method); ("turn_off", Method);
        ("active", HybridProperty); ("actions_query", AsyncClassMethod);
        ("send_email", AsyncStaticMethod); ("send_message", AsyncStaticMethod) ]
  | ModerationAction_cls =>
      [ ("finish_at", Column); ("time_limited", HybridProperty);
        ("finish_in", Method); ("finished", HybridProperty);
        ("active", HybridProperty); ("moderate", AsyncClassMethod) ]
  | ModerationWarning_cls =>
      [ ("threshold_model", Property); ("warn", AsyncClassMethod) ]
  end.

(** Method resolution order among the classes of the file. *)
Definition mro (c : pyclass) : list pyclass :=
  match c with
  | BaseModerationAction_cls => [BaseModerationAction_cls]
  | ModerationAction_cls => [ModerationAction_cls; BaseModerationAction_cls]
  | ModerationWarning_cls => [ModerationWarning_cls; BaseModerationAction_cls]
  end.

Fixpoint assoc {A} (name : string) (l : list (string * A)) : option A :=
  match l with
  | [] => None
  | (k, v) :: l' => if String.eqb k name then Some v else assoc name l'
  end.

Fixpoint lookup_in (cs : list pyclass) (name : string) : option member :=
  match cs with
  | [] => None
  | c :: cs' =>
      match assoc name (class_body c) with
      | Some m => Some m
      | None => lookup_in cs' name
      end
  end.

Definition lookup (c : pyclass) (name : string) : option member :=
  lookup_in (mro c) name.

Definition no_attribute {A} (c : pyclass) (name : string) : M A :=
  raise (AttributeError ("type object '" ++ class_name c ++ "'") name).

(** ** Queries

    [filter_by(active=True, user_id=..., extra filters)] as the description of
    the rows it selects; on warnings [active] is the [is_active] column. *)

Record Query := mkQuery {
  q_model : pyclass;
  q_user_id : Z;
  q_action_type : option string
}.

Definition matches (q : Query) (r : BaseModerationAction) : bool :=
  base_active r && (user_id r =? q_user_id q) &&
  match q_action_type q with
  | Some t => String.eqb (action_type r) t
  | None => true
  end.

Definition count_warnings (q : Query) (t : Tables) : Z :=
  Z.of_nat (List.length (filter (fun w : ModerationWarning => matches q w) (warnings t))).

(** [threshold_model.query.filter_by(action_type=...).first()] *)
Definition first_threshold (t : Tables) (a : string) : option ModerationWarningThreshold :=
  find (fun r => String.eqb (Threshold.action_type r) a) (warning_thresholds t).

(** ** Column defaults and limits

    [extra_data] is declared with [default={}]: a row inserted with no
    value for it holds the empty object.  [db.Integer] is the 32-bit
    integer of the PostgreSQL store configured in [settings/base.py];
    [db.String(512)] holds at most 512 characters. *)

Definition extra_data_default : JSON := [].

Definition with_extra_data_default (x : option JSON) : option JSON :=
  match x with
  | Some d => Some d
  | None => Some extra_data_default
  end.

Definition fits_Integer (v : Z) : bool :=
  (-2147483648 <=? v) && (v <=? 2147483647).

Definition fits_String (n : nat) (s : string) : bool :=
  Nat.leb (String.length s) n.

Definition row_fits (r : BaseModerationAction) : bool :=
  fits_Integer (moderator_id r) && fits_Integer (user_id r) &&
  fits_String 512 (reason r).

(** ** Rows under update *)

Definition set_is_active (b : bool) (r : BaseModerationAction) : BaseModerationAction :=
  mkBase (id r) (action_type r) (moderator_id r) (user_id r) (created_at r)
         (reason r) b (extra_data r).

Definition action_set_is_active (b : bool) (a : ModerationAction) : ModerationAction :=
  mkAction (set_is_active b a) (finish_at a).

Definition warning_set_is_active (b : bool) (w : ModerationWarning) : ModerationWarning :=
  mkWarning (set_is_active b w).

Definition action_key (a : ModerationAction) : Z := id a.
Definition action_is_active (a : ModerationAction) : bool := is_active a.
Definition warning_key (x : ModerationWarning) : Z := id x.
Definition warning_is_active (x : ModerationWarning) : bool := is_active x.

Inductive ledger := Actions | Warnings.

(** The row [self] of a ledger is the one bearing its primary key. *)
Definition update_row {R} (key : R -> Z) (k : Z) (f : R -> R) (l : list R) : list R :=
  map (fun r => if key r =? k then f r else r) l.

Definition set_active_in (l : ledger) (k : Z) (b : bool) (t : Tables) : Tables :=
  match l with
  | Actions =>
      mkTables (update_row action_key k (action_set_is_active b) (actions t))
               (warnings t) (warning_thresholds t) (actions_seq t) (warnings_seq t)
  | Warnings =>
      mkTables (actions t)
               (update_row warning_key k (warning_set_is_active b) (warnings t))
               (warning_thresholds t) (actions_seq t) (warnings_seq t)
  end.

(** A row entering a table takes the next value of its sequence. *)
Definition insert_action (obj : ModerationAction) (t : Tables) : Tables :=
  mkTables (actions t ++ [obj]) (warnings t) (warning_thresholds t)
           (actions_seq t + 1) (warnings_seq t).

Definition insert_warning (obj : ModerationWarning) (t : Tables) : Tables :=
  mkTables (actions t) (warnings t ++ [obj]) (warning_thresholds t)
           (actions_seq t) (warnings_seq t + 1).

(** ** The operations

    The environment of a request: the clock, the configured sender, and
    the remote user's delivery, which answers [Some e] when it raises [e],
    and the store's answer to a commit. *)

Section Operations.

Variable now : datetime.
Variable DEFAULT_FROM_EMAIL : string.
Variable deliver : Notification -> option exn.

(** The store's answer to the flush of a session view at commit: [Some e]
    when it refuses with [e] (a value that does not fit its column, the
    store being out of reach). *)
Variable flush : Tables -> option exn.

(** [db.session.commit()]: when the flush is refused the call raises,
    nothing is committed and the transaction is rolled back, the rows
    added in it leaving the session. *)
Definition db_session_commit : M unit :=
  fun w =>
    match flush (session w) with
    | Some e => (Raise e, mkWorld (committed w) (committed w) (events w))
    | None => session_commit w
    end.

Definition notify (n : Notification) : M unit :=
  match deliver n with
  | Some e => raise e
  | None => log (Sent n)
  end.

(** [BaseModerationAction.send_email] and [send_message]; the email goes
    out with [fail_silently=False]. *)
Definition send_email (user : RemoteUser.t) (subject message from_email : string)
  : coroutine unit :=
  Coroutine (notify (Email user subject message from_email)).

Definition send_message (user : RemoteUser.t) (message : string) : coroutine unit :=
  Coroutine (notify (Message user message)).

(** The construction of [obj] from the keyword arguments [data],
    followed by [db.session.add(obj)], for each ledger; the row carries
    the INSERT defaults, [extra_data] included. *)
Definition new_action (t : Tables) (action_type reason : string) (moderator_id user_id : Z)
           (finish_at : option datetime) (extra_data : option JSON) : ModerationAction :=
  mkAction (mkBase (actions_seq t) action_type moderator_id user_id now
                   reason true (with_extra_data_default extra_data)) finish_at.

Definition new_warning (t : Tables) (action_type reason : string) (moderator_id user_id : Z)
           (extra_data : option JSON) : ModerationWarning :=
  mkWarning (mkBase (warnings_seq t) action_type moderator_id user_id now
                    reason true (with_extra_data_default extra_data)).

Definition add_action (action_type reason : string) (moderator_id user_id : Z)
           (finish_at : option datetime) (extra_data : option JSON) : M ModerationAction :=
  fun w =>
    let obj := new_action (session w) action_type reason moderator_id user_id
                          finish_at extra_data in
    (Ok obj,
     mkWorld (committed w) (insert_action obj (session w))
             (events w ++ [AddedAction obj])).

Definition add_warning (action_type reason : string) (moderator_id user_id : Z)
           (extra_data : option JSON) : M ModerationWarning :=
  fun w =>
    let obj := new_warning (session w) action_type reason moderator_id user_id
                           extra_data in
    (Ok obj,
     mkWorld (committed w) (insert_warning obj (session w))
             (events w ++ [AddedWarning obj])).

(** [save(commit)] of the framework's model base class (not in
    [models.py]): the changed row is part of the session, and is
    committed at once when [commit] is set; the store is taken to accept
    the changed flag. *)
Definition save (commit : bool) : M unit :=
  if commit then session_commit else ret tt.

Definition turn_on (l : ledger) (self : Z) (commit : bool) : M unit :=
  modify_session (set_active_in l self true) ;;
  save commit.

Definition turn_off (l : ledger) (self : Z) (commit : bool) : M unit :=
  modify_session (set_active_in l self false) ;;
  save commit.

(** [BaseModerationAction.actions_query]: an [async def]. *)
Definition actions_query (cls : pyclass) (user_id : Z) (filters : option string)
  : coroutine Query :=
  Coroutine (ret (mkQuery cls user_id filters)).

(** [ModerationAction.moderate]: the function has no [return], its
    value is Python's [None]. *)
Definition moderate (action_type reason : string) (moderator user : RemoteUser.t)
           (extra_data : option JSON) (finish_at : option datetime) (commit : bool)
  : coroutine (option ModerationAction) :=
  Coroutine (
    obj <- add_action action_type reason (RemoteUser.id moderator) (RemoteUser.id user)
                      finish_at extra_data ;;
    (if commit then db_session_commit else ret tt) ;;
    await (send_email user "You are moderated" reason DEFAULT_FROM_EMAIL) ;;
    await (send_message user reason) ;;
    ret None).

(** [cls.moderate] read on a class: the classmethod when the class or a
    base declares it. *)
Definition getattr_moderate (cls : pyclass) :=
  match lookup cls "moderate" with
  | Some _ => ret moderate
  | None => no_attribute cls "moderate"
  end.

(** [cls.threshold_model.query.filter_by(action_type=...).first()].
    [threshold_model] is declared with [@property]: read on the class
    (not on an instance) it is the property object itself, which has no
    [query]. *)
Definition threshold_model_first (cls : pyclass) (a : string)
  : M (option ModerationWarningThreshold) :=
  match lookup cls "threshold_model" with
  | Some Property => raise (AttributeError "'property' object" "query")
  | Some _ => fun w => (Ok (first_threshold (session w) a), w)
  | None => no_attribute cls "threshold_model"
  end.

(** [threshold.value]; [first()] answers [None] when no row matches. *)
Definition threshold_value (t : option ModerationWarningThreshold) : M Z :=
  match t with
  | Some r => ret (Threshold.value r)
  | None => raise (AttributeError "'NoneType' object" "value")
  end.

(** Lines 163-176 of [warn]: the comparison, its two branches and the
    final commit. *)
Definition warn_decide (cls : pyclass) (warns_count : Z)
           (threshold : option ModerationWarningThreshold)
           (action_type reason : string) (moderator user : RemoteUser.t)
           (finish_at : option datetime) (extra_data : option JSON) : M unit :=
  value <- threshold_value threshold ;;
  (if warns_count >=? value then
     m <- getattr_moderate cls ;;
     await (m action_type reason moderator user extra_data finish_at false) ;;
     ret tt
   else
     await (send_email user "You are warned" reason DEFAULT_FROM_EMAIL) ;;
     await (send_message user reason)) ;;
  db_session_commit.

(** The body of the [try] block.  Line 161 reads [.count()] on the value
    of the call [cls.actions_query(...)], a coroutine object; [await]
    would apply to what [.count()] returns. *)
Definition warn_try (cls : pyclass) (action_type reason : string)
           (moderator user : RemoteUser.t)
           (finish_at : option datetime) (extra_data : option JSON) : M unit :=
  warns_count <- coroutine_getattr
                   (actions_query cls (RemoteUser.id user) (Some action_type)) "count" ;;
  threshold <- threshold_model_first cls action_type ;;
  warn_decide cls warns_count threshold action_type reason moderator user
              finish_at extra_data.

(** [ModerationWarning.warn] *)
Definition warn (action_type reason : string) (moderator user : RemoteUser.t)
           (finish_at : option datetime) (extra_data : option JSON) : coroutine unit :=
  Coroutine (
    let cls := ModerationWarning_cls in
    obj <- add_warning action_type reason (RemoteUser.id moderator) (RemoteUser.id user)
                       extra_data ;;
    try_except
      (warn_try cls action_type reason moderator user finish_at extra_data)
      (fun e => session_rollback ;; raise e)).

(** A call from the service layer: [await ModerationAction.moderate(...)]
    with the default [commit=True], [await ModerationWarning.warn(...)]. *)
Definition call {A} (c : coroutine A) (w : World) : result A * World := await c w.

End Operations.

(** [get_moderations] of the internal API ([api/v1/internal.py]): it reads
    [.all()] on the value of the call [ModerationAction.actions_query(user_id)]. *)
Definition get_moderations (user_id : Z) : coroutine (list ModerationAction) :=
  Coroutine (coroutine_getattr (actions_query ModerationAction_cls user_id None) "all").

(** ** Sequences of reactivations and deactivations *)

Inductive toggle :=
| TurnOn (l : ledger) (self : Z) (commit : bool)
| TurnOff (l : ledger) (self : Z) (commit : bool).

Definition run_toggle (t : toggle) : M unit :=
  match t with
  | TurnOn l k c => turn_on l k c
  | TurnOff l k c => turn_off l k c
  end.

Fixpoint run_toggles (ts : list toggle) : M unit :=
  match ts with
  | [] => ret tt
  | t :: ts' => run_toggle t ;; run_toggles ts'
  end.



Definition ledger_eqb (a b : ledger) : bool :=
  match a, b with
  | Actions, Actions | Warnings, Warnings => true
  | _, _ => false
  end.

Definition targets (l : ledger) (k : Z) (t : toggle) : bool :=
  match t with
  | TurnOn l' k' _ | TurnOff l' k' _ => ledger_eqb l' l && (k =? k')
  end.

Definition touched (l : ledger) (k : Z) (ts : list toggle) : bool :=
  existsb (targets l k) ts.

(** [r'] is the row [r], except that it may differ in [is_active] when
    some call of [ts] was made on it. *)
Definition framed {R} (key : R -> Z) (act : R -> bool) (set : bool -> R -> R)
           (l : ledger) (ts : list toggle) (r r' : R) : Prop :=
  r' = if touched l (key r) ts then set (act r') r else r.


(** ** Reading the event log *)

Definition is_sent (e : Event) : bool :=
  match e with Sent _ => true | _ => false end.

Definition is_added_action (e : Event) : bool :=
  match e with AddedAction _ => true | _ => false end.

Definition is_write (e : Event) : bool :=
  match e with AddedAction _ | AddedWarning _ => true | _ => false end.

(** ** Outcomes of a call

    [w] is the world before the call, [r] the pair the call evaluates to. *)

Definition sent_count (w : World) : nat := List.length (filter is_sent (events w)).

(** Either the call completed, its writes committed and both notifications
    out, or it raised and the committed ledgers are as before. *)
Definition completes_or_leaves_nothing {A} (w : World) (r : result A * World) : Prop :=
  (exists v, fst r = Ok v /\ committed (snd r) = session (snd r) /\
             sent_count (snd r) = (sent_count w + 2)%nat) \/
  (exists e, fst r = Raise e /\ committed (snd r) = committed w).

(** The call raised before it staged or committed anything. *)
Definition rejected_before_write {A} (w : World) (r : result A * World) : Prop :=
  exists e, fst r = Raise e /\
            filter is_write (events (snd r)) = filter is_write (events w) /\
            session (snd r) = session w /\
            committed (snd r) = committed w.

(** The call raised an exception of the class [kind]. *)
Definition raises_kind {A} (kind : string) (r : result A * World) : Prop :=
  exists e, fst r = Raise e /\ exn_class e = kind.

(** The call returned a row of the actions ledger. *)
Definition returns_created_action (r : result (option ModerationAction) * World) : Prop :=
  exists a, fst r = Ok (Some a) /\ In a (actions (session (snd r))).

(** ** Scenarios *)

Definition moderator : RemoteUser.t := RemoteUser.mk 1.
Definition offender : RemoteUser.t := RemoteUser.mk 7.

Definition delivers : Notification -> option exn := fun _ => None.

(** A store that accepts every commit, and one that enforces the limits
    of the columns. *)
Definition accepts : Tables -> option exn := fun _ => None.

Definition column_limits : Tables -> option exn :=
  fun t =>
    if forallb (fun a : ModerationAction => row_fits a) (actions t) &&
       forallb (fun x : ModerationWarning => row_fits x) (warnings t)
    then None
    else Some (mkExn "DataError" "value does not fit its column").

Definition message_fails : Notification -> option exn :=
  fun n =>
    match n with
    | Email _ _ _ _ => None
    | Message _ _ => Some (mkExn "DeliveryError" "user unreachable")
    end.

Definition earlier_warning (k : Z) : ModerationWarning :=
  mkWarning (mkBase k "ban_game" 1 7 50 "cheating" true (Some [])).

Definition clean (t : Tables) : World := mkWorld t t [].

(** Threshold 3 for [ban_game]; the offender has two active warnings. *)
Definition two_warnings : Tables :=
  mkTables [] [earlier_warning 1; earlier_warning 2]
           [Threshold.mk 1 "ban_game" 3] 1 3.

(** The offender has three active warnings and the action they led to. *)
Definition escalated : Tables :=
  mkTables [mkAction (mkBase 1 "ban_game" 1 7 60 "cheating" true (Some [])) None]
           [earlier_warning 1; earlier_warning 2; earlier_warning 3]
           [Threshold.mk 1 "ban_game" 3] 2 4.

(** No threshold row for any action type. *)
Definition unconfigured : Tables := mkTables [] [] [] 1 1.

Definition permanent_ban : ModerationAction :=
  mkAction (mkBase 1 "ban_account" 1 7 60 "fraud" true (Some [])) None.

(** ** Further vocabulary *)




(** Primary keys: every key in a table is below the table's sequence, and
    no two rows of a table share a key. *)
Definition keys_below_seq (t : Tables) : Prop :=
  Forall (fun a : ModerationAction => id a < actions_seq t) (actions t) /\
  Forall (fun x : ModerationWarning => id x < warnings_seq t) (warnings t).

Definition keys_unique (t : Tables) : Prop :=
  NoDup (map action_key (actions t)) /\ NoDup (map warning_key (warnings t)).

(** The store's answer to the commit of [moderate]: none is asked for
    when [commit] is not set. *)
Definition commit_answer (flush : Tables -> option exn) (commit : bool) (t : Tables)
  : option exn :=
  if commit then flush t else None.

(** The notifications of [moderate], in the order it sends them. *)
Definition moderate_notifications (from : string) (u : RemoteUser.t) (r : string)
  : list Event :=
  [Sent (Email u "You are moderated" r from); Sent (Message u r)].

(** The notifications of the warned branch of [warn]. *)
Definition warn_notifications (from : string) (u : RemoteUser.t) (r : string)
  : list Event :=
  [Sent (Email u "You are warned" r from); Sent (Message u r)].

(** * Properties *)

(** ** Derived properties of actions *)





(** C1. The claim wants [finished] false, and the action [active], when
    [finish_at] is absent.  On a permanent ban that is switched on,
    [finished] answers true at every time, so the ban is never [active]. *)
Theorem finished_permanent_ban : forall now,
  finish_at permanent_ban = None /\
  is_active permanent_ban = true /\
  time_limited permanent_ban = false /\
  finished now permanent_ban = true /\
  active now permanent_ban = false.
Proof. intros now. repeat split. Qed.

(** ** Attribute lookup on [ModerationWarning] *)

Lemma warning_class_has_actions_query :
  lookup ModerationWarning_cls "actions_query" = Some AsyncClassMethod.
Proof. reflexivity. Qed.

Lemma warning_class_threshold_model_is_property :
  lookup ModerationWarning_cls "threshold_model" = Some Property.
Proof. reflexivity. Qed.

Lemma warning_class_lacks_moderate :
  lookup ModerationWarning_cls "moderate" = None.
Proof. reflexivity. Qed.

Lemma action_class_has_moderate :
  lookup ModerationAction_cls "moderate" = Some AsyncClassMethod.
Proof. reflexivity. Qed.

(** ** What a call of [warn] does *)

Lemma warn_run now from deliver flush a r m u f x w :
  call (warn now from deliver flush a r m u f x) w =
  (Raise (AttributeError "'coroutine' object" "count"),
   mkWorld (committed w) (committed w)
           ((events w
             ++ [AddedWarning (new_warning now (session w) a r (RemoteUser.id m)
                                            (RemoteUser.id u) x)])
            ++ [RolledBack])).
Proof. reflexivity. Qed.

(** C3. The offender has threshold - 1 = 2 active warnings of type
    [ban_game].  The claim wants the call to commit a third warning and
    send the warned notification; the call raises at the count, nothing
    is committed and nothing is sent. *)
Theorem warn_below_threshold_raises : forall now from deliver flush,
  let q := mkQuery ModerationWarning_cls 7 (Some "ban_game") in
  let r := call (warn now from deliver flush "ban_game" "cheating" moderator offender None None)
                (clean two_warnings) in
  first_threshold two_warnings "ban_game" = Some (Threshold.mk 1 "ban_game" 3) /\
  count_warnings q two_warnings = 3 - 1 /\
  fst r = Raise (AttributeError "'coroutine' object" "count") /\
  committed (snd r) = two_warnings /\
  session (snd r) = two_warnings /\
  filter is_sent (events (snd r)) = [].
Proof. intros. repeat split. Qed.

(** C8. The offender has three warnings and the action they led to.  The
    claim wants a further call to stage a warning counted with the earlier
    ones; the call raises before any count is taken and the ledger keeps
    its three warnings. *)
Theorem warn_after_escalation_raises : forall now from deliver flush,
  let r := call (warn now from deliver flush "ban_game" "again" moderator offender None None)
                (clean escalated) in
  fst r = Raise (AttributeError "'coroutine' object" "count") /\
  warnings (committed (snd r)) = warnings escalated /\
  warnings (session (snd r)) = warnings escalated /\
  actions (committed (snd r)) = actions escalated /\
  Forall (fun x : ModerationWarning => is_active x = true) (warnings (committed (snd r))).
Proof.
  intros. repeat split. repeat constructor.
Qed.

(** C10. The third warning of the offender, given with a [finish_at].
    The claim wants the threshold reached and an action limited by that
    [finish_at]; the call raises at the count, no action is staged, and the
    outcome is the same for every [finish_at]. *)
Theorem warn_finish_at_without_effect : forall now from deliver flush f,
  let r := call (warn now from deliver flush "ban_game" "cheating" moderator offender (Some 500)
                      (Some [("match", "42")]))
                (clean two_warnings) in
  fst r = Raise (AttributeError "'coroutine' object" "count") /\
  actions (committed (snd r)) = [] /\
  actions (session (snd r)) = [] /\
  filter is_added_action (events (snd r)) = [] /\
  r = call (warn now from deliver flush "ban_game" "cheating" moderator offender f
                 (Some [("match", "42")]))
           (clean two_warnings).
Proof. intros. repeat split. Qed.

Lemma get_moderations_run user_id w :
  call (get_moderations user_id) w =
  (Raise (AttributeError "'coroutine' object" "all"), w).
Proof. reflexivity. Qed.

(** ** What a call of [moderate] does *)

Lemma moderate_run now from deliver flush a r m u x f (commit : bool) w :
  let obj := new_action now (session w) a r (RemoteUser.id m) (RemoteUser.id u) f x in
  let t' := insert_action obj (session w) in
  let c' := if commit then t' else committed w in
  let ev := if commit then (events w ++ [AddedAction obj]) ++ [Committed]
            else events w ++ [AddedAction obj] in
  let email := Email u "You are moderated" r from in
  let message := Message u r in
  call (moderate now from deliver flush a r m u x f commit) w =
  match commit_answer flush commit t' with
  | Some e =>
      (Raise e, mkWorld (committed w) (committed w) (events w ++ [AddedAction obj]))
  | None =>
      match deliver email with
      | Some e => (Raise e, mkWorld c' t' ev)
      | None =>
          match deliver message with
          | Some e => (Raise e, mkWorld c' t' (ev ++ [Sent email]))
          | None => (Ok None, mkWorld c' t' ((ev ++ [Sent email]) ++ [Sent message]))
          end
      end
  end.
Proof.
  cbv zeta.
  unfold call, moderate, await, send_email, send_message, notify, bind,
    commit_answer, db_session_commit.
  destruct commit; cbn [add_action session committed events fst snd].
  - destruct (flush (insert_action
                       (new_action now (session w) a r (RemoteUser.id m)
                                   (RemoteUser.id u) f x) (session w))); [reflexivity|].
    cbn. destruct (deliver (Email u "You are moderated" r from)); cbn; [reflexivity|].
    destruct (deliver (Message u r)); reflexivity.
  - cbn. destruct (deliver (Email u "You are moderated" r from)); cbn; [reflexivity|].
    destruct (deliver (Message u r)); reflexivity.
Qed.

Lemma in_insert_action obj t : In obj (actions (insert_action obj t)).
Proof. simpl. apply in_or_app. right. now left. Qed.

(** The offender's id does not fit [db.Integer]: the commit of [moderate]
    raises, nothing is committed and nothing is sent. *)
Example moderate_refused_by_store :
  let res := call (moderate 100 "noreply@anthill" delivers column_limits "ban_game"
                            "cheating" moderator (RemoteUser.mk (2 ^ 63)) None None true)
                  (clean two_warnings) in
  fst res = Raise (mkExn "DataError" "value does not fit its column") /\
  committed (snd res) = two_warnings /\
  session (snd res) = two_warnings /\
  filter is_sent (events (snd res)) = [].
Proof. repeat split. Qed.

(** C2, as stated, fails: the message to the user cannot be delivered,
    [moderate] raises, and the new action is committed all the same. *)
Lemma moderate_not_all_or_nothing :
  ~ completes_or_leaves_nothing
      (clean two_warnings)
      (call (moderate 100 "noreply@anthill" message_fails column_limits "ban_game"
                      "cheating" moderator offender None None true)
            (clean two_warnings)).
Proof.
  intros [[v [H _]] | [e [_ H]]].
  - discriminate H.
  - discriminate H.
Qed.

(** C2, amended.  A call of [warn] completes or leaves the committed
    ledgers as they were.  A call of [moderate] with [commit=True] commits
    the new action before it notifies.  When that commit raises, the call
    raises the same exception, nothing is committed and nothing is sent.
    Once the commit has succeeded the row is committed whatever follows:
    when a delivery raises, the call raises that exception with the row
    committed, and when both deliveries succeed both notifications are
    out. *)
Theorem moderate_commits_before_notifying :
  forall now from deliver flush a r m u x f w,
    let obj := new_action now (session w) a r (RemoteUser.id m) (RemoteUser.id u) f x in
    let email := Email u "You are moderated" r from in
    let message := Message u r in
    let res := call (moderate now from deliver flush a r m u x f true) w in
    completes_or_leaves_nothing w (call (warn now from deliver flush a r m u f x) w) /\
    match flush (insert_action obj (session w)) with
    | Some e =>
        fst res = Raise e /\
        committed (snd res) = committed w /\
        events (snd res) = events w ++ [AddedAction obj]
    | None =>
        committed (snd res) = insert_action obj (session w) /\
        session (snd res) = insert_action obj (session w) /\
        In obj (actions (committed (snd res))) /\
        match deliver email, deliver message with
        | Some e, _ =>
            fst res = Raise e /\
            events (snd res) = events w ++ [AddedAction obj; Committed]
        | None, Some e =>
            fst res = Raise e /\
            events (snd res) = events w ++ [AddedAction obj; Committed; Sent email]
        | None, None =>
            fst res = Ok None /\
            events (snd res) =
              events w ++ [AddedAction obj; Committed; Sent email; Sent message]
        end
    end.
Proof.
  intros. subst res.
  split.
  { right. rewrite warn_run. eexists. split; reflexivity. }
  rewrite moderate_run. fold obj email message. unfold commit_answer.
  destruct (flush (insert_action obj (session w))) as [e|].
  { repeat split. }
  destruct (deliver email) as [e|]; [|destruct (deliver message) as [e|]];
    cbn [fst snd committed session events];
    repeat rewrite <- app_assoc; cbn [app];
    (repeat split; try reflexivity; apply in_insert_action).
Qed.

(** C6, as stated, fails: [moderate] with an empty reason is not rejected;
    the call succeeds and its row is written. *)
Lemma moderate_accepts_empty_reason :
  ~ rejected_before_write
      (clean two_warnings)
      (call (moderate 100 "noreply@anthill" delivers column_limits "ban_game" ""
                      moderator offender None None true)
            (clean two_warnings)).
Proof. intros [e [H _]]. discriminate H. Qed.

(** C6, amended.  Neither operation validates [reason]: with an empty
    reason, [moderate] first stages the action carrying it; unless the
    commit it was asked for raises (then the call raises with nothing
    committed), the row is in the session, is committed when [commit] is
    set, and the call succeeds when both deliveries do; [warn] first stages
    the warning carrying it, like any other reason. *)
Theorem empty_reason_is_written :
  forall now from deliver flush a m u x f (commit : bool) w,
    let obj := new_action now (session w) a "" (RemoteUser.id m) (RemoteUser.id u) f x in
    let wobj := new_warning now (session w) a "" (RemoteUser.id m) (RemoteUser.id u) x in
    let res := call (moderate now from deliver flush a "" m u x f commit) w in
    let wres := call (warn now from deliver flush a "" m u f x) w in
    reason obj = "" /\
    reason wobj = "" /\
    (exists tail, events (snd res) = events w ++ AddedAction obj :: tail) /\
    match commit_answer flush commit (insert_action obj (session w)) with
    | Some e =>
        fst res = Raise e /\ committed (snd res) = committed w
    | None =>
        In obj (actions (session (snd res))) /\
        (if commit then In obj (actions (committed (snd res)))
         else committed (snd res) = committed w) /\
        match deliver (Email u "You are moderated" "" from), deliver (Message u "") with
        | None, None => fst res = Ok None
        | Some e, _ | None, Some e => fst res = Raise e
        end
    end /\
    (exists tail, events (snd wres) = events w ++ AddedWarning wobj :: tail).
Proof.
  intros. subst res wres.
  rewrite warn_run, moderate_run. fold obj wobj.
  split; [reflexivity|]. split; [reflexivity|].
  assert (Hin : In obj (actions (insert_action obj (session w))))
    by apply in_insert_action.
  destruct (commit_answer flush commit (insert_action obj (session w))) as [e|].
  { cbn [fst snd committed session events].
    repeat split; try reflexivity; eexists; repeat rewrite <- app_assoc; reflexivity. }
  destruct (deliver (Email u "You are moderated" "" from)) as [e|];
    [|destruct (deliver (Message u "")) as [e|]];
    destruct commit; cbn [fst snd committed session events];
    repeat rewrite <- app_assoc; cbn [app];
    (repeat split; try reflexivity; try exact Hin; eexists; reflexivity).
Qed.

(** C7, as stated, fails: a call that succeeds and writes its row returns
    no row. *)
Lemma moderate_returns_no_row :
  ~ returns_created_action
      (call (moderate 100 "noreply@anthill" delivers column_limits "ban_game" "cheating"
                      moderator offender None None true)
            (clean two_warnings)).
Proof. intros [a [H _]]. discriminate H. Qed.

(** C7, amended.  Every successful call of [moderate] returns [None]; the
    record it created is the row appended to the actions ledger, built
    from the arguments, with the empty object for [extra_data] when none
    was passed, and both notifications are out. *)
Theorem moderate_returns_none :
  forall now from deliver flush a r m u x f (commit : bool) w v w',
    call (moderate now from deliver flush a r m u x f commit) w = (Ok v, w') ->
    let obj := new_action now (session w) a r (RemoteUser.id m) (RemoteUser.id u) f x in
    v = None /\
    actions (session w') = actions (session w) ++ [obj] /\
    action_type obj = a /\ reason obj = r /\
    moderator_id obj = RemoteUser.id m /\ user_id obj = RemoteUser.id u /\
    extra_data obj = Some (match x with Some d => d | None => [] end) /\
    finish_at obj = f /\ is_active obj = true /\
    (if commit then committed w' = session w' else committed w' = committed w) /\
    sent_count w' = (sent_count w + 2)%nat.
Proof.
  intros now from deliver flush a r m u x f commit w v w' H obj.
  rewrite moderate_run in H. fold obj in H.
  destruct (commit_answer flush commit (insert_action obj (session w)));
    [discriminate H|].
  destruct (deliver (Email u "You are moderated" r from)); [discriminate H|].
  destruct (deliver (Message u r)); [discriminate H|].
  inversion H; subst; clear H.
  repeat split; try reflexivity.
  - now destruct x.
  - now destruct commit.
  - unfold sent_count. cbn [events].
    rewrite !filter_app, !length_app. destruct commit; cbn; rewrite ?filter_app, ?length_app; cbn; lia.
Qed.

Lemma moderate_returns_none_witness :
  let w := clean two_warnings in
  let c := moderate 100 "noreply@anthill" delivers column_limits "ban_game" "cheating"
                    moderator offender None (Some 500) true in
  call c w = (Ok None, snd (call c w)) /\
  actions (session (snd (call c w))) =
    [new_action 100 two_warnings "ban_game" "cheating" 1 7 (Some 500) None] /\
  map (fun a : ModerationAction => extra_data a) (actions (session (snd (call c w)))) =
    [Some []].
Proof.
  split; [reflexivity|].
  split; [|reflexivity].
  exact (proj1 (proj2
      (moderate_returns_none 100 "noreply@anthill" delivers column_limits "ban_game"
         "cheating" moderator offender None (Some 500) true (clean two_warnings) None
         (snd (call (moderate 100 "noreply@anthill" delivers column_limits "ban_game"
                              "cheating" moderator offender None (Some 500) true)
                    (clean two_warnings)))
         eq_refl))).
Defined.

(** ** The comparison and its branches (lines 163-176) *)

Lemma warn_decide_without_threshold now from deliver flush cls n a r m u f x w :
  warn_decide now from deliver flush cls n None a r m u f x w =
  (Raise (AttributeError "'NoneType' object" "value"), w).
Proof. reflexivity. Qed.

Lemma warn_decide_below_threshold now from deliver flush cls n t a r m u f x w :
  n < Threshold.value t ->
  deliver (Email u "You are warned" r from) = None ->
  deliver (Message u r) = None ->
  flush (session w) = None ->
  warn_decide now from deliver flush cls n (Some t) a r m u f x w =
  (Ok tt,
   mkWorld (session w) (session w)
           (((events w ++ [Sent (Email u "You are warned" r from)])
             ++ [Sent (Message u r)]) ++ [Committed])).
Proof.
  intros Hlt He Hm Hf.
  unfold warn_decide, threshold_value, bind, ret, await, send_email, send_message, notify,
    db_session_commit.
  assert (Hc : (n >=? Threshold.value t) = false) by (rewrite Z.geb_leb; apply Z.leb_gt; lia).
  rewrite Hc, He. cbn. rewrite Hm. cbn. rewrite Hf. reflexivity.
Qed.

Lemma warn_decide_at_threshold now from deliver flush n t a r m u f x w :
  Threshold.value t <= n ->
  warn_decide now from deliver flush ModerationWarning_cls n (Some t) a r m u f x w =
  (Raise (AttributeError "type object 'ModerationWarning'" "moderate"), w).
Proof.
  intros Hle.
  unfold warn_decide, threshold_value, bind, ret.
  assert (Hc : (n >=? Threshold.value t) = true) by (rewrite Z.geb_leb; apply Z.leb_le; lia).
  rewrite Hc. reflexivity.
Qed.

Lemma db_session_commit_raise flush w e w' :
  db_session_commit flush w = (Raise e, w') -> committed w' = committed w.
Proof.
  unfold db_session_commit. destruct (flush (session w)).
  - intros H; inversion H; reflexivity.
  - intros H; discriminate H.
Qed.

Lemma warn_decide_raise_keeps_committed now from deliver flush cls n th a r m u f x w e w' :
  warn_decide now from deliver flush cls n th a r m u f x w = (Raise e, w') ->
  committed w' = committed w.
Proof.
  unfold warn_decide, threshold_value, getattr_moderate, no_attribute, bind, ret, raise.
  destruct th as [t|]; [|intros H; inversion H; reflexivity].
  destruct (n >=? Threshold.value t).
  - destruct (lookup cls "moderate").
    + pose proof (moderate_run now from deliver flush a r m u x f false w) as Hrun.
      cbv zeta in Hrun. unfold call, commit_answer in Hrun. rewrite Hrun.
      destruct (deliver (Email u "You are moderated" r from)).
      * intros H; inversion H; reflexivity.
      * destruct (deliver (Message u r)).
        -- intros H; inversion H; reflexivity.
        -- intros H. apply db_session_commit_raise in H. exact H.
    + intros H; inversion H; reflexivity.
  - unfold await, send_email, send_message, notify, raise, log.
    destruct (deliver (Email u "You are warned" r from)).
    + intros H; inversion H; reflexivity.
    + cbn. destruct (deliver (Message u r)).
      * intros H; inversion H; reflexivity.
      * intros H. apply db_session_commit_raise in H. exact H.
Qed.

(** [try: body except Exception: db.session.rollback(); raise] *)
Lemma rollback_handler A (body : M A) w e w' :
  try_except body (fun e => session_rollback ;; raise e) w = (Raise e, w') ->
  exists w2,
    body w = (Raise e, w2) /\
    committed w' = committed w2 /\
    session w' = committed w2 /\
    events w' = events w2 ++ [RolledBack].
Proof.
  unfold try_except. destruct (body w) as [[v|e0] w2]; [discriminate|].
  cbn. intros H. inversion H; subst. exists w2. repeat split.
Qed.

(** C4.  When a call of [warn] raises, the exception is the one raised in
    the [try] block, the rollback has run, and the committed ledgers and
    the session view are the committed ledgers from before the call: the
    staged warning is gone.  From the comparison on, run under the same
    handler with any count and any threshold lookup (escalation and
    notification included), a failure equally leaves the committed ledgers
    as they were and discards what was staged. *)
Theorem warn_failure_rolls_back :
  forall now from deliver flush a r m u f x w,
    (forall e w',
        call (warn now from deliver flush a r m u f x) w = (Raise e, w') ->
        committed w' = committed w /\
        session w' = committed w /\
        exists obj w1 w2,
          add_warning now a r (RemoteUser.id m) (RemoteUser.id u) x w = (Ok obj, w1) /\
          In obj (warnings (session w1)) /\
          warn_try now from deliver flush ModerationWarning_cls a r m u f x w1 = (Raise e, w2) /\
          events w' = events w2 ++ [RolledBack]) /\
    (forall cls n th e w',
        try_except (warn_decide now from deliver flush cls n th a r m u f x)
                   (fun e => session_rollback ;; raise e) w = (Raise e, w') ->
        committed w' = committed w /\ session w' = committed w).
Proof.
  intros now from deliver flush a r m u f x w. split.
  - intros e w' H.
    unfold call, warn, await, bind in H.
    destruct (add_warning now a r (RemoteUser.id m) (RemoteUser.id u) x w)
      as [[obj|e0] w1] eqn:Hadd; [|discriminate Hadd].
    apply rollback_handler in H. destruct H as [w2 [Htry [Hc [Hs Hev]]]].
    assert (Hw2 : committed w2 = committed w).
    { unfold warn_try, coroutine_getattr, bind, raise in Htry.
      inversion Htry; subst. unfold add_warning in Hadd. inversion Hadd; reflexivity. }
    rewrite Hw2 in Hc, Hs. repeat split; try assumption.
    exists obj, w1, w2. repeat split; try assumption.
    unfold add_warning in Hadd. inversion Hadd; subst. cbn.
    apply in_or_app. right. now left.
  - intros cls n th e w' H.
    apply rollback_handler in H. destruct H as [w2 [Hd [Hc [Hs _]]]].
    apply warn_decide_raise_keeps_committed in Hd.
    rewrite Hd in Hc, Hs. now split.
Qed.

Lemma warn_failure_rolls_back_witness :
  let w := mkWorld two_warnings two_warnings [] in
  let c := warn 100 "noreply@anthill" message_fails accepts "ban_game" "cheating"
                moderator offender None None in
  call c w = (Raise (AttributeError "'coroutine' object" "count"), snd (call c w)) /\
  committed (snd (call c w)) = two_warnings /\
  session (snd (call c w)) = two_warnings.
Proof.
  split; [reflexivity|].
  pose proof (proj1 (warn_failure_rolls_back 100 "noreply@anthill" message_fails accepts
                       "ban_game" "cheating" moderator offender None None
                       (mkWorld two_warnings two_warnings []))
                _ _ eq_refl) as H.
  destruct H as [Hc [Hs _]]. split; [exact Hc | exact Hs].
Defined.

(** C5, as stated, fails: no threshold row exists, and the exception that
    [warn] raises is not of a ConfigurationError class. *)
Lemma warn_unconfigured_not_configuration_error :
  ~ raises_kind "ConfigurationError"
      (call (warn 100 "noreply@anthill" delivers accepts "hide_message" "spam"
                  moderator offender None None)
            (clean unconfigured)).
Proof.
  intros [e [H Hk]]. rewrite warn_run in H. cbn [fst] in H.
  inversion H; subst. discriminate Hk.
Qed.

(** C5, amended.  With no threshold row for the action type, [warn] raises
    an AttributeError, stages no action, sends nothing and leaves the
    committed ledgers as they were; the comparison step, given the missing
    row, raises whatever the count is, so the default constant 3 never
    stands in for the missing value. *)
Theorem warn_unconfigured_raises_attribute_error :
  forall now from deliver flush a r m u f x w,
    first_threshold (session w) a = None ->
    let res := call (warn now from deliver flush a r m u f x) w in
    raises_kind "AttributeError" res /\
    committed (snd res) = committed w /\
    session (snd res) = committed w /\
    filter is_added_action (events (snd res)) = filter is_added_action (events w) /\
    filter is_sent (events (snd res)) = filter is_sent (events w) /\
    forall cls n w1,
      fst (warn_decide now from deliver flush cls n (first_threshold (session w) a)
                       a r m u f x w1)
      = Raise (AttributeError "'NoneType' object" "value").
Proof.
  intros now from deliver flush a r m u f x w Hnone res. subst res.
  rewrite warn_run. cbn [fst snd committed session events].
  repeat split.
  - eexists. split; reflexivity.
  - rewrite !filter_app. cbn. now rewrite !app_nil_r.
  - rewrite !filter_app. cbn. now rewrite !app_nil_r.
  - intros cls n w1. rewrite Hnone. reflexivity.
Qed.

Lemma warn_unconfigured_witness :
  first_threshold unconfigured "hide_message" = None /\
  raises_kind "AttributeError"
    (call (warn 100 "noreply@anthill" delivers accepts "hide_message" "spam"
                moderator offender None None)
          (clean unconfigured)).
Proof.
  split; [reflexivity|].
  exact (proj1 (warn_unconfigured_raises_attribute_error
                  100 "noreply@anthill" delivers accepts "hide_message" "spam"
                  moderator offender None None (clean unconfigured) eq_refl)).
Defined.

(** ** [turn_on] and [turn_off] *)

Lemma set_is_active_fields b r :
  id (set_is_active b r) = id r /\
  action_type (set_is_active b r) = action_type r /\
  moderator_id (set_is_active b r) = moderator_id r /\
  user_id (set_is_active b r) = user_id r /\
  created_at (set_is_active b r) = created_at r /\
  reason (set_is_active b r) = reason r /\
  extra_data (set_is_active b r) = extra_data r /\
  is_active (set_is_active b r) = b.
Proof. repeat split. Qed.

Lemma action_set_is_active_finish_at b a :
  finish_at (action_set_is_active b a) = finish_at a.
Proof. reflexivity. Qed.




Section Frame.

Context {R : Type} (key : R -> Z) (act : R -> bool) (set : bool -> R -> R).
Variable l : ledger.

Hypothesis key_set : forall b r, key (set b r) = key r.
Hypothesis act_set : forall b r, act (set b r) = b.
Hypothesis set_set : forall b c r, set b (set c r) = set b r.
Hypothesis set_same : forall r, set (act r) r = r.








End Frame.






Lemma framed_action_fields ts (a a' : ModerationAction) :
  framed action_key action_is_active action_set_is_active Actions ts a a' ->
  id a' = id a /\ action_type a' = action_type a /\
  moderator_id a' = moderator_id a /\ user_id a' = user_id a /\
  created_at a' = created_at a /\ reason a' = reason a /\
  extra_data a' = extra_data a /\ finish_at a' = finish_at a /\
  (touched Actions (id a) ts = false -> a' = a).
Proof.
  unfold framed, action_key. intros H.
  destruct (touched Actions (id a) ts); rewrite H; repeat split; intros; discriminate.
Qed.

Lemma framed_warning_fields ts (x x' : ModerationWarning) :
  framed warning_key warning_is_active warning_set_is_active Warnings ts x x' ->
  id x' = id x /\ action_type x' = action_type x /\
  moderator_id x' = moderator_id x /\ user_id x' = user_id x /\
  created_at x' = created_at x /\ reason x' = reason x /\
  extra_data x' = extra_data x /\
  (touched Warnings (id x) ts = false -> x' = x).
Proof.
  unfold framed, warning_key. intros H.
  destruct (touched Warnings (id x) ts); rewrite H; repeat split; intros; discriminate.
Qed.

(** Switching off the second warning of the offender, twice, then the
    action: the first and third warnings are as they were. *)
Example toggles_on_escalated :
  let res := run_toggles [TurnOff Warnings 2 false; TurnOff Warnings 2 true;
                          TurnOff Actions 1 false]
                         (clean escalated) in
  warnings (session (snd res)) =
    [earlier_warning 1; warning_set_is_active false (earlier_warning 2); earlier_warning 3] /\
  map (fun a : ModerationAction => is_active a) (actions (session (snd res))) = [false] /\
  map (fun a : ModerationAction => is_active a) (actions (committed (snd res))) = [true].
Proof. repeat split. Qed.

(** * Further properties of the code *)

(** ** Expiry *)

(** X1.  An action is [active] exactly when it is switched on and carries
    a [finish_at] that lies strictly in the future. *)
Theorem active_iff : forall now (a : ModerationAction),
  active now a = true <->
  is_active a = true /\ exists t, finish_at a = Some t /\ now < t.
Proof.
  intros now a. unfold active, finished.
  destruct (finish_at a) as [t|]; rewrite andb_true_iff, negb_true_iff.
  - rewrite Z.leb_gt. split.
    + intros [Ha Ht]. split; [exact Ha|]. exists t. now split.
    + intros [Ha [t' [Heq Ht]]]. inversion Heq; subst. now split.
  - split.
    + intros [_ H]. discriminate H.
    + intros [_ [t [H _]]]. discriminate H.
Qed.

(** X2.  Expiry is final: as time advances a finished action stays
    finished, and an action active at the later time was active at the
    earlier one. *)
Theorem expiry_is_final : forall now now' (a : ModerationAction),
  now <= now' ->
  (finished now a = true -> finished now' a = true) /\
  (active now' a = true -> active now a = true).
Proof.
  intros now now' a Hle. split.
  - unfold finished. destruct (finish_at a) as [t|]; [|reflexivity].
    rewrite !Z.leb_le. lia.
  - unfold active, finished. destruct (finish_at a) as [t|].
    + rewrite !andb_true_iff, !negb_true_iff, !Z.leb_gt.
      intros [Ha Ht]. split; [exact Ha | lia].
    + rewrite andb_false_r. discriminate.
Qed.

Lemma expiry_is_final_witness :
  let a := mkAction (mkBase 1 "ban_game" 1 7 60 "cheating" true (Some [])) (Some 100) in
  90 <= 120 /\
  (active 120 a = true -> active 90 a = true) /\
  active 90 a = true /\ finished 120 a = true.
Proof.
  split; [lia|]. split.
  - exact (proj2 (expiry_is_final 90 120
             (mkAction (mkBase 1 "ban_game" 1 7 60 "cheating" true (Some [])) (Some 100))
             ltac:(lia))).
  - split; reflexivity.
Defined.

(** X3.  [finish_in] answers [None] exactly for an action without time
    limit; for a limited one it answers the time left, the action is
    finished exactly when nothing is left, and the time left shrinks by the
    time that passes. *)
Theorem finish_in_time_left : forall now (a : ModerationAction),
  (finish_in now a = None <-> time_limited a = false) /\
  (forall d, finish_in now a = Some d ->
             finished now a = (d <=? 0) /\
             forall s, finish_in (now + s) a = Some (d - s)).
Proof.
  intros now a. unfold finish_in, time_limited, finished.
  destruct (finish_at a) as [t|]; split.
  - split; discriminate.
  - intros d H. inversion H; subst. split.
    + destruct (t <=? now) eqn:E; symmetry.
      * apply Z.leb_le. apply Z.leb_le in E. lia.
      * apply Z.leb_gt. apply Z.leb_gt in E. lia.
    + intros s. f_equal. lia.
  - split; reflexivity.
  - intros d H. discriminate H.
Qed.

Lemma finish_in_time_left_witness :
  let a := mkAction (mkBase 1 "ban_game" 1 7 60 "cheating" true (Some [])) (Some 100) in
  finish_in 90 a = Some 10 /\
  finished 90 a = (10 <=? 0) /\
  finish_in (90 + 25) a = Some (10 - 25).
Proof.
  split; [reflexivity|].
  pose proof (proj2 (finish_in_time_left 90
                (mkAction (mkBase 1 "ban_game" 1 7 60 "cheating" true (Some [])) (Some 100)))
                10 eq_refl) as [H1 H2].
  split; [exact H1 | exact (H2 25)].
Defined.

(** ** Switching rows on and off *)








Lemma turn_off_session l k c w :
  session (snd (turn_off l k c w)) = set_active_in l k false (session w).
Proof. destruct c; reflexivity. Qed.





(** ** More on [moderate] *)

Lemma moderate_tables now from deliver flush a r m u x f (commit : bool) w :
  let obj := new_action now (session w) a r (RemoteUser.id m) (RemoteUser.id u) f x in
  let res := call (moderate now from deliver flush a r m u x f commit) w in
  commit_answer flush commit (insert_action obj (session w)) = None ->
  session (snd res) = insert_action obj (session w) /\
  committed (snd res) = (if commit then insert_action obj (session w) else committed w).
Proof.
  cbv zeta. intros Hc. rewrite moderate_run, Hc.
  destruct (deliver (Email u "You are moderated" r from));
    [|destruct (deliver (Message u r))]; split; reflexivity.
Qed.

Lemma moderate_refused now from deliver flush a r m u x f (commit : bool) w e :
  let obj := new_action now (session w) a r (RemoteUser.id m) (RemoteUser.id u) f x in
  commit_answer flush commit (insert_action obj (session w)) = Some e ->
  call (moderate now from deliver flush a r m u x f commit) w =
  (Raise e, mkWorld (committed w) (committed w) (events w ++ [AddedAction obj])).
Proof. cbv zeta. intros Hc. rewrite moderate_run, Hc. reflexivity. Qed.

Lemma moderate_events now from deliver flush a r m u x f (commit : bool) w :
  let obj := new_action now (session w) a r (RemoteUser.id m) (RemoteUser.id u) f x in
  let res := call (moderate now from deliver flush a r m u x f commit) w in
  let staged := AddedAction obj :: (if commit then [Committed] else []) in
  match commit_answer flush commit (insert_action obj (session w)) with
  | Some e => fst res = Raise e /\ events (snd res) = events w ++ [AddedAction obj]
  | None =>
      match deliver (Email u "You are moderated" r from), deliver (Message u r) with
      | Some e, _ => fst res = Raise e /\ events (snd res) = events w ++ staged
      | None, Some e =>
          fst res = Raise e /\
          events (snd res) =
            events w ++ staged ++ firstn 1 (moderate_notifications from u r)
      | None, None =>
          fst res = Ok None /\
          events (snd res) = events w ++ staged ++ moderate_notifications from u r
      end
  end.
Proof.
  cbv zeta. rewrite moderate_run.
  destruct (commit_answer flush commit _); [split; reflexivity|].
  destruct (deliver (Email u "You are moderated" r from));
    [|destruct (deliver (Message u r))]; destruct commit;
    cbn [fst snd events]; repeat rewrite <- app_assoc; split; reflexivity.
Qed.

(** X7.  [moderate] notifies the moderated user and nobody else, first by
    email with the subject 'You are moderated', then by message, both
    carrying the reason: what a call adds to the log after its own write
    is a prefix of these two notifications, the message is attempted only
    after the email went out, and the call succeeds exactly when both went
    out. *)
Theorem moderate_notifies_the_user : forall now from deliver flush a r m u x f commit w,
  let res := call (moderate now from deliver flush a r m u x f commit) w in
  exists new,
    events (snd res) = events w ++ new /\
    (exists n, filter is_sent new = firstn n (moderate_notifications from u r)) /\
    (fst res = Ok None <-> filter is_sent new = moderate_notifications from u r).
Proof.
  intros now from deliver flush a r m u x f commit w res. subst res.
  pose proof (moderate_events now from deliver flush a r m u x f commit w) as H.
  cbv zeta in H.
  destruct (commit_answer flush commit _) as [e|].
  { destruct H as [Hr He]. rewrite Hr, He. eexists. split; [reflexivity|]. cbn.
    split; [exists 0%nat; reflexivity | split; discriminate]. }
  destruct (deliver (Email u "You are moderated" r from)) as [e|];
    [|destruct (deliver (Message u r)) as [e|]];
    destruct H as [Hr He]; rewrite Hr, He; eexists; (split; [reflexivity|]);
    destruct commit; cbn.
  - split; [exists 0%nat; reflexivity | split; discriminate].
  - split; [exists 0%nat; reflexivity | split; discriminate].
  - split; [exists 1%nat; reflexivity | split; discriminate].
  - split; [exists 1%nat; reflexivity | split; discriminate].
  - split; [exists 2%nat; reflexivity | split; reflexivity].
  - split; [exists 2%nat; reflexivity | split; reflexivity].
Qed.

(** X8.  Unless the commit it was asked for raises, a call of [moderate]
    leaves in the session view exactly one more action, a failed delivery
    included, appended after the existing ones, and touches neither the
    warnings nor the thresholds; when the commit raises, the call raises
    the same exception, the session is rolled back to the committed
    ledgers, which are unchanged, and nothing is sent.  The row is built
    from the arguments and the column defaults, [extra_data] being the
    empty object when none was passed. *)
Theorem moderate_touches_only_actions : forall now from deliver flush a r m u x f commit w,
  let obj := new_action now (session w) a r (RemoteUser.id m) (RemoteUser.id u) f x in
  let res := call (moderate now from deliver flush a r m u x f commit) w in
  match commit_answer flush commit (insert_action obj (session w)) with
  | Some e =>
      fst res = Raise e /\
      committed (snd res) = committed w /\
      session (snd res) = committed w /\
      filter is_sent (events (snd res)) = filter is_sent (events w)
  | None =>
      actions (session (snd res)) = actions (session w) ++ [obj] /\
      warnings (session (snd res)) = warnings (session w) /\
      warning_thresholds (session (snd res)) = warning_thresholds (session w) /\
      warnings_seq (session (snd res)) = warnings_seq (session w)
  end /\
  id obj = actions_seq (session w) /\ created_at obj = now /\ is_active obj = true /\
  action_type obj = a /\ reason obj = r /\ finish_at obj = f /\
  moderator_id obj = RemoteUser.id m /\ user_id obj = RemoteUser.id u /\
  extra_data obj = Some (match x with Some d => d | None => [] end).
Proof.
  intros. subst res. split.
  - destruct (commit_answer flush commit (insert_action obj (session w))) as [e|] eqn:Hc.
    + rewrite (moderate_refused now from deliver flush a r m u x f commit w e Hc).
      cbn [fst snd committed session events]. repeat split.
      rewrite filter_app. cbn. apply app_nil_r.
    + destruct (moderate_tables now from deliver flush a r m u x f commit w Hc) as [Hs _].
      rewrite Hs. repeat split.
  - repeat split. now destruct x.
Qed.

(** X9.  [moderate] with [commit=True] commits the whole session, not only
    its own row: when the store accepts the commit, a deactivation made
    just before without commit is published with the new action, whether
    or not the notifications then succeed; when the store refuses it, the
    call raises and neither is committed. *)
Theorem moderate_publishes_pending_changes :
  forall now from deliver flush a r m u x f l k w,
    let w1 := snd (turn_off l k false w) in
    let obj := new_action now (session w1) a r (RemoteUser.id m) (RemoteUser.id u) f x in
    let res := call (moderate now from deliver flush a r m u x f true) w1 in
    committed w1 = committed w /\
    session w1 = set_active_in l k false (session w) /\
    match flush (insert_action obj (session w1)) with
    | Some e => fst res = Raise e /\ committed (snd res) = committed w
    | None =>
        committed (snd res) = insert_action obj (set_active_in l k false (session w)) /\
        committed (snd res) = session (snd res)
    end.
Proof.
  intros. subst res.
  split; [reflexivity|]. split; [subst w1; apply turn_off_session|].
  destruct (flush (insert_action obj (session w1))) as [e|] eqn:Hf.
  - rewrite (moderate_refused now from deliver flush a r m u x f true w1 e Hf).
    split; reflexivity.
  - destruct (moderate_tables now from deliver flush a r m u x f true w1 Hf) as [Hs Hc].
    rewrite Hs, Hc. subst obj w1. rewrite turn_off_session. split; reflexivity.
Qed.

Lemma session_commit_committed w :
  committed (snd (session_commit w)) = session w.
Proof. reflexivity. Qed.

Lemma session_rollback_session w :
  session (snd (session_rollback w)) = committed w.
Proof. reflexivity. Qed.

(** X10.  [moderate] with [commit=False] commits nothing in any outcome,
    and it has no rollback of its own: when a delivery raises, the action
    stays staged in the session, and the next commit of the session
    publishes it. *)
Theorem moderate_without_commit_only_stages :
  forall now from deliver flush a r m u x f w,
    let obj := new_action now (session w) a r (RemoteUser.id m) (RemoteUser.id u) f x in
    let w' := snd (call (moderate now from deliver flush a r m u x f false) w) in
    committed w' = committed w /\
    In obj (actions (session w')) /\
    In obj (actions (committed (snd (session_commit w')))) /\
    session (snd (session_rollback w')) = committed w.
Proof.
  intros. subst w'.
  destruct (moderate_tables now from deliver flush a r m u x f false w eq_refl) as [Hs Hc].
  split; [exact Hc|]. split; [rewrite Hs; apply in_insert_action|]. split.
  - rewrite session_commit_committed, Hs. apply in_insert_action.
  - rewrite session_rollback_session. exact Hc.
Qed.

(** X11.  The action [moderate] creates is switched on, yet it is [active]
    at a time only if a [finish_at] was given and lies after that time;
    created with the default [finish_at=None] it is active at no time.
    The action is in the session unless the commit asked for raised. *)
Theorem moderated_action_activity :
  forall now from deliver flush a r m u x f commit w later,
    let obj := new_action now (session w) a r (RemoteUser.id m) (RemoteUser.id u) f x in
    let res := call (moderate now from deliver flush a r m u x f commit) w in
    match commit_answer flush commit (insert_action obj (session w)) with
    | Some e => fst res = Raise e
    | None => In obj (actions (session (snd res)))
    end /\
    active later obj = match f with
                       | Some t => later <? t
                       | None => false
                       end.
Proof.
  intros. subst res. split.
  - destruct (commit_answer flush commit (insert_action obj (session w))) as [e|] eqn:Hc.
    + now rewrite (moderate_refused now from deliver flush a r m u x f commit w e Hc).
    + destruct (moderate_tables now from deliver flush a r m u x f commit w Hc) as [Hs _].
      rewrite Hs. apply in_insert_action.
  - unfold active, finished. cbn. destruct f as [t|]; [|reflexivity].
    rewrite Z.ltb_antisym. reflexivity.
Qed.

(** ** More on [warn] *)

(** X12.  Whatever the arguments, the store and the delivery, a call of
    [warn] stages its warning, raises the AttributeError of the count
    expression, and rolls back: the committed ledgers are untouched, the
    session view is reset to them, no notification goes out and no action
    is staged. *)
Theorem warn_always_raises : forall now from deliver flush a r m u f x w,
  let obj := new_warning now (session w) a r (RemoteUser.id m) (RemoteUser.id u) x in
  let res := call (warn now from deliver flush a r m u f x) w in
  fst res = Raise (AttributeError "'coroutine' object" "count") /\
  committed (snd res) = committed w /\
  session (snd res) = committed w /\
  events (snd res) = events w ++ [AddedWarning obj; RolledBack] /\
  filter is_sent (events (snd res)) = filter is_sent (events w) /\
  filter is_added_action (events (snd res)) = filter is_added_action (events w).
Proof.
  intros. subst res. rewrite warn_run. fold obj.
  cbn [fst snd committed session events]. rewrite <- app_assoc. cbn [app].
  repeat split; rewrite filter_app; cbn; apply app_nil_r.
Qed.

(** X13.  The rollback of [warn] is the session's: changes staged before
    the call and not yet committed are lost with the warning, be it a
    deactivation made without commit or an action staged by [moderate]
    with [commit=False]. *)
Theorem warn_discards_pending_changes :
  forall now from deliver flush a r m u f x l k a2 r2 m2 u2 x2 f2 w,
    let w1 := snd (turn_off l k false w) in
    let w2 := snd (call (moderate now from deliver flush a2 r2 m2 u2 x2 f2 false) w1) in
    let w' := snd (call (warn now from deliver flush a r m u f x) w2) in
    session w1 = set_active_in l k false (session w) /\
    In (new_action now (session w1) a2 r2 (RemoteUser.id m2) (RemoteUser.id u2) f2 x2)
       (actions (session w2)) /\
    committed w' = committed w /\
    session w' = committed w.
Proof.
  intros. subst w'.
  destruct (moderate_tables now from deliver flush a2 r2 m2 u2 x2 f2 false w1 eq_refl)
    as [Hs Hc].
  fold w2 in Hs, Hc.
  split; [subst w1; apply turn_off_session|].
  split; [rewrite Hs; apply in_insert_action|].
  rewrite warn_run. cbn [snd committed session]. rewrite Hc.
  subst w1. split; reflexivity.
Qed.

(** X14.  Behind the count, two more lookups of [warn] fail on their own:
    the threshold lookup of line 162 raises for every store, since
    [threshold_model] is a property read on the class; and in the
    comparison, any count that reaches the threshold value takes the
    escalation branch, which raises because [ModerationWarning] has no
    [moderate], leaving the world as it was. *)
Theorem warn_lookups_fail : forall now from deliver flush a r m u f x n t w,
  Threshold.value t <= n ->
  threshold_model_first ModerationWarning_cls a w =
    (Raise (AttributeError "'property' object" "query"), w) /\
  warn_decide now from deliver flush ModerationWarning_cls n (Some t) a r m u f x w =
    (Raise (AttributeError "type object 'ModerationWarning'" "moderate"), w).
Proof.
  intros. split; [reflexivity|]. now apply warn_decide_at_threshold.
Qed.

Lemma warn_lookups_fail_witness :
  Threshold.value (Threshold.mk 1 "ban_game" 3) <= 3 /\
  fst (warn_decide 100 "noreply@anthill" delivers accepts ModerationWarning_cls 3
                   (Some (Threshold.mk 1 "ban_game" 3)) "ban_game" "cheating"
                   moderator offender None None (clean two_warnings))
  = Raise (AttributeError "type object 'ModerationWarning'" "moderate").
Proof.
  split; [cbn; lia|].
  rewrite (proj2 (warn_lookups_fail 100 "noreply@anthill" delivers accepts "ban_game" "cheating"
                    moderator offender None None 3 (Threshold.mk 1 "ban_game" 3)
                    (clean two_warnings) ltac:(cbn; lia))).
  reflexivity.
Defined.

(** X15.  In the comparison of [warn], a count below the threshold value
    takes the warned branch: the user gets the email 'You are warned' and
    then the message, no action is staged, and the session is committed
    only after both went out; when a delivery raises, the exception leaves
    the branch with nothing committed.  When the final commit itself
    raises, both notifications are out already and nothing is committed. *)
Theorem warn_decide_warned_branch : forall now from deliver flush cls n t a r m u f x w,
  n < Threshold.value t ->
  let res := warn_decide now from deliver flush cls n (Some t) a r m u f x w in
  match deliver (Email u "You are warned" r from), deliver (Message u r) with
  | Some e, _ => res = (Raise e, w)
  | None, Some e =>
      fst res = Raise e /\ committed (snd res) = committed w /\
      session (snd res) = session w /\
      events (snd res) = events w ++ firstn 1 (warn_notifications from u r)
  | None, None =>
      match flush (session w) with
      | None =>
          fst res = Ok tt /\ committed (snd res) = session w /\
          session (snd res) = session w /\
          events (snd res) = events w ++ warn_notifications from u r ++ [Committed]
      | Some e =>
          fst res = Raise e /\ committed (snd res) = committed w /\
          session (snd res) = committed w /\
          events (snd res) = events w ++ warn_notifications from u r
      end
  end.
Proof.
  intros now from deliver flush cls n t a r m u f x w Hlt res. subst res.
  assert (Hc : (n >=? Threshold.value t) = false)
    by (rewrite Z.geb_leb; apply Z.leb_gt; lia).
  unfold warn_decide, threshold_value, bind, ret, await, send_email, send_message, notify,
    db_session_commit.
  rewrite Hc.
  destruct (deliver (Email u "You are warned" r from)) as [e|]; cbn.
  - reflexivity.
  - destruct (deliver (Message u r)) as [e|]; cbn.
    + repeat split.
    + destruct (flush (session w)) as [e|]; cbn;
        repeat rewrite <- app_assoc; repeat split.
Qed.

Lemma warn_decide_warned_branch_witness :
  2 < Threshold.value (Threshold.mk 1 "ban_game" 3) /\
  fst (warn_decide 100 "noreply@anthill" delivers accepts ModerationWarning_cls 2
                   (Some (Threshold.mk 1 "ban_game" 3)) "ban_game" "cheating"
                   moderator offender None None (clean two_warnings))
  = Ok tt.
Proof.
  split; [cbn; lia|].
  exact (proj1 (warn_decide_warned_branch 100 "noreply@anthill" delivers accepts
                  ModerationWarning_cls 2 (Threshold.mk 1 "ban_game" 3)
                  "ban_game" "cheating" moderator offender None None
                  (clean two_warnings) ltac:(cbn; lia))).
Defined.

(** ** The query of [actions_query] on warnings *)

Lemma matches_new_warning now q t a r mid uid x :
  matches q (new_warning now t a r mid uid x) =
  (uid =? q_user_id q) &&
  match q_action_type q with
  | Some ty => String.eqb a ty
  | None => true
  end.
Proof. reflexivity. Qed.

Lemma count_warnings_turn_off q k rows :
  (List.length (filter (fun w : ModerationWarning => matches q w)
                  (update_row warning_key k (warning_set_is_active false) rows))
   <= List.length (filter (fun w : ModerationWarning => matches q w) rows))%nat.
Proof.
  unfold update_row.
  induction rows as [|r rows IH]; cbn [map filter]; [cbn; lia|].
  destruct (warning_key r =? k).
  - change (matches q (warning_set_is_active false r)) with false.
    destruct (matches q r); cbn [List.length]; lia.
  - destruct (matches q r); cbn [List.length]; lia.
Qed.

(** X16.  The rows [actions_query] selects among warnings: a warning just
    created counts for the query of its own user and action type, and for
    no query on another user or another type; switching a warning off
    never raises a count. *)
Theorem new_warning_is_counted : forall now q t a r mid uid x k,
  count_warnings q (insert_warning (new_warning now t a r mid uid x) t) =
    count_warnings q t +
    (if (uid =? q_user_id q) &&
        match q_action_type q with
        | Some ty => String.eqb a ty
        | None => true
        end
     then 1 else 0) /\
  count_warnings (mkQuery ModerationWarning_cls uid (Some a))
                 (insert_warning (new_warning now t a r mid uid x) t) =
    count_warnings (mkQuery ModerationWarning_cls uid (Some a)) t + 1 /\
  count_warnings q (set_active_in Warnings k false t) <= count_warnings q t.
Proof.
  intros now q t a r mid uid x k.
  assert (Hgen : forall q',
             count_warnings q' (insert_warning (new_warning now t a r mid uid x) t) =
             count_warnings q' t +
             (if matches q' (new_warning now t a r mid uid x) then 1 else 0)).
  { intros q'. unfold count_warnings. cbn [insert_warning warnings].
    rewrite filter_app, length_app. cbn [filter].
    destruct (matches q' (new_warning now t a r mid uid x)); cbn [List.length]; lia. }
  split; [|split].
  - rewrite Hgen, matches_new_warning. reflexivity.
  - rewrite Hgen, matches_new_warning. cbn [q_user_id q_action_type].
    rewrite Z.eqb_refl, String.eqb_refl. reflexivity.
  - unfold count_warnings. cbn [set_active_in warnings].
    apply Nat2Z.inj_le. apply count_warnings_turn_off.
Qed.

(** ** Primary keys *)

Lemma NoDup_app_fresh (keys : list Z) (k : Z) :
  NoDup keys -> Forall (fun x => x < k) keys -> NoDup (keys ++ [k]).
Proof.
  intros Hnd Hlt. induction Hnd as [|y l Hnin Hnd IH]; cbn.
  - constructor; [intros []|constructor].
  - inversion Hlt; subst. constructor.
    + intros Hin. apply in_app_or in Hin. destruct Hin as [Hin|[Heq|[]]].
      * contradiction.
      * lia.
    + apply IH. assumption.
Qed.

(** X17.  Primary keys stay usable across [moderate]: if every key of the
    session view lies below its table's sequence and no two rows of a
    table share a key, the same holds after the call, a failed delivery
    included, and the new action has a key no other action has; when the
    commit asked for raises, the session is back at the committed
    ledgers. *)
Theorem moderate_keeps_keys : forall now from deliver flush a r m u x f commit w,
  keys_below_seq (session w) ->
  keys_unique (session w) ->
  let obj := new_action now (session w) a r (RemoteUser.id m) (RemoteUser.id u) f x in
  let w' := snd (call (moderate now from deliver flush a r m u x f commit) w) in
  match commit_answer flush commit (insert_action obj (session w)) with
  | Some e => session w' = committed w
  | None => keys_below_seq (session w') /\ keys_unique (session w')
  end.
Proof.
  intros now from deliver flush a r m u x f commit w [Ha Hw] [Hua Huw] obj w'. subst w'.
  destruct (commit_answer flush commit (insert_action obj (session w))) as [e|] eqn:Hc.
  { now rewrite (moderate_refused now from deliver flush a r m u x f commit w e Hc). }
  destruct (moderate_tables now from deliver flush a r m u x f commit w Hc) as [Hs _].
  rewrite Hs. unfold keys_below_seq, keys_unique.
  cbn [insert_action actions warnings actions_seq warnings_seq].
  repeat split.
  - apply Forall_app. split.
    + eapply Forall_impl; [|exact Ha]. cbn. intros; lia.
    + constructor; [cbn; lia | constructor].
  - exact Hw.
  - rewrite map_app. cbn [map]. apply NoDup_app_fresh; [exact Hua|].
    apply Forall_map. exact Ha.
  - exact Huw.
Qed.

Lemma moderate_keeps_keys_witness :
  keys_below_seq escalated /\ keys_unique escalated /\
  keys_unique
    (session (snd (call (moderate 100 "noreply@anthill" message_fails column_limits
                                  "ban_game" "again" moderator offender None None true)
                        (clean escalated)))).
Proof.
  assert (Hb : keys_below_seq (session (clean escalated))).
  { split; repeat constructor. }
  assert (Hu : keys_unique (session (clean escalated))).
  { split; cbn.
    - constructor; [intros []|constructor].
    - repeat constructor; cbn; intuition discriminate. }
  split; [exact Hb|]. split; [exact Hu|].
  exact (proj2 (moderate_keeps_keys 100 "noreply@anthill" message_fails column_limits
                  "ban_game" "again" moderator offender None None true
                  (clean escalated) Hb Hu)).
Defined.

(** ** The internal API *)

(** X18.  [get_moderations] cannot answer: for every user id and store it
    raises the AttributeError of reading [.all()] on the coroutine that
    [actions_query] returns, and leaves the world as it was. *)
Theorem get_moderations_always_raises : forall user_id w,
  fst (call (get_moderations user_id) w) = Raise (AttributeError "'coroutine' object" "all") /\
  snd (call (get_moderations user_id) w) = w /\
  lookup ModerationAction_cls "actions_query" = Some AsyncClassMethod.
Proof. intros. rewrite get_moderations_run. repeat split. Qed.
